(** * AbcView: the aggregation header [bin/AbcView/All.h]

    The only program text of this slice of the repository is a C++ header
    made of preprocessor directives.  Its meaning is what the C preprocessor
    does with it: which macros it defines, which headers it pulls in, in
    which order, and under which conditions.

    The development has four parts.
    - [Source]: the header, line by line, and a lexer from a physical line
      to a directive.
    - [Cpp]: the preprocessor as an error-returning state transformer over a
      macro table, a stack of conditional frames and an output trace.  The
      headers named by [#include] are not part of the repository: their
      effect on the macro table is a parameter of the semantics.
    - [AllH]: the dependency lists of the header and the vocabulary of the
      specification (dependency classes, the enumerations of its tables).
    - the properties of [All.h] under that semantics.

    Whether a header named by [#include] exists on the include path of a
    build is a fact about the build, not about this file: the semantics of
    [Cpp] takes every named header as present.  [Fallible] is the same
    semantics with headers that can be missing or stop the build, and
    [Circular] models dependencies that include the header back. *)

From Stdlib Require Import String Ascii List Bool Arith Lia Sorted.
From stdpp Require Import base option gmap strings list.
Import ListNotations.
Open Scope string_scope.
Open Scope list_scope.

(* ===================================================================== *)
(** ** The source text *)
(* ===================================================================== *)

Module Source.

(** [All_h] is the header, one entry per physical line; entry [k] is line
    [k+1] of the file.  The last line carries no line terminator. *)
Definition All_h : list string :=
  [ ""
  ; "#ifndef _AbcView_All_h_"
  ; "#define _AbcView_All_h_"
  ; ""
  ; "#define ABCVIEW_VERSION_NS v1"
  ; ""
  ; "#include <iostream>"
  ; "#include <algorithm>"
  ; "#include <math.h>"
  ; ""
  ; "#include <ImathMath.h>"
  ; "#include <ImathVec.h>"
  ; "#include <ImathMatrix.h>"
  ; "#include <ImathBox.h>"
  ; "#include <ImathQuat.h>"
  ; "#include <ImathColor.h>"
  ; "#include <ImathFun.h>"
  ; "#include <ImathBoxAlgo.h>"
  ; ""
  ; "#ifdef PLATFORM_DARWIN"
  ; ""
  ; "#include <OpenGL/gl.h>"
  ; "#include <OpenGL/glu.h>"
  ; "#include <OpenGL/glext.h>"
  ; "#include <OpenGL/OpenGL.h>"
  ; "#include <GLUT/glut.h>"
  ; ""
  ; "#else"
  ; "// http://stackoverflow.com/questions/8580675/error-gl-h-included-before-glew-h"
  ; "#include <GL/glew.h>"
  ; ""
  ; "#endif // ifdef PLATFORM_DARWIN"
  ; ""
  ; "#include <QtWidgets/QAction>"
  ; "#include <QtWidgets/QAbstractItemView>"
  ; "#include <QtWidgets/QDockWidget>"
  ; "#include <QtWidgets/QFileDialog>"
  ; "#include <QtWidgets/QLabel>"
  ; "#include <QtWidgets/QMenu>"
  ; "#include <QtWidgets/QMenuBar>"
  ; "#include <QtWidgets/QMainWindow>"
  ; "#include <QtWidgets/QStyleFactory>"
  ; "#include <QtWidgets/QToolBar>"
  ; "#include <QtWidgets/QTreeWidget>"
  ; "#include <QtWidgets/QTreeWidgetItem>"
  ; "#include <QtWidgets/QWidget>"
  ; "#include <QIODevice>"
  ; "#include <QFile>"
  ; "#include <QResizeEvent>"
  ; "#include <QWheelEvent>"
  ; "#include <QKeyEvent>"
  ; "#include <QMouseEvent>"
  ; "#include <QPoint>"
  ; "#include <QtOpenGL/QGLWidget>"
  ; "#include <QtOpenGL/QGLFormat>"
  ; "#include <AbcOpenGL/GLCamera.h>"
  ; "#include <AbcOpenGL/SceneWrapper.h>"
  ; ""
  ; "#endif"
  ].

(** The macros the header reads or writes. *)
Definition guard : string := "_AbcView_All_h_".
Definition version_ns : string := "ABCVIEW_VERSION_NS".
Definition platform : string := "PLATFORM_DARWIN".

(** *** Lexer *)

(** A logical line of the preprocessor.  [Text] is anything that is not a
    directive: declarations, definitions and statements of the language
    proper travel through the preprocessor as text. *)
Inductive line : Type :=
  | Blank
  | Ifdef (m : string)
  | Ifndef (m : string)
  | Else
  | Endif
  | Define (m body : string)
  | Undef (m : string)
  | Include (h : string)
  | Unsupported (name : string)
  | Text (t : string).

Definition is_blank_char (c : ascii) : bool :=
  (Ascii.eqb c " " || Ascii.eqb c "009")%bool.

Fixpoint ltrim (s : string) : string :=
  match s with
  | String c r => if is_blank_char c then ltrim r else s
  | EmptyString => EmptyString
  end.

(** [rtrim] drops the blanks at the end: a character is kept when something
    that is kept follows it or when it is not a blank itself. *)
Fixpoint rtrim (s : string) : string :=
  match s with
  | String c r =>
      match rtrim r with
      | EmptyString => if is_blank_char c then EmptyString else String c EmptyString
      | r' => String c r'
      end
  | EmptyString => EmptyString
  end.

Definition trim (s : string) : string := rtrim (ltrim s).

(** A [//] comment runs to the end of the line.  (The header has no block
    comment; the lexer knows none.) *)
Fixpoint strip_comment (s : string) : string :=
  match s with
  | String "/" (String "/" _) => EmptyString
  | String c r => String c (strip_comment r)
  | EmptyString => EmptyString
  end.

(** [word s] splits [s] at its first blank: the leading token and what is
    left, without the blanks in between. *)
Fixpoint word (s : string) : string * string :=
  match s with
  | String c r =>
      if is_blank_char c then (EmptyString, ltrim r)
      else let '(w, rest) := word r in (String c w, rest)
  | EmptyString => (EmptyString, EmptyString)
  end.

(** The target of an [#include]: the name between angle brackets (or between
    quotes; character 34 is the quote). *)
Definition unbracket (s : string) : option string :=
  match s with
  | String o r =>
      let n := String.length r in
      let body := substring 0 (n - 1) r in
      let close := substring (n - 1) 1 r in
      if (Ascii.eqb o "<" && String.eqb close ">")%bool then Some body
      else if (Ascii.eqb o "034" && String.eqb close (String "034" EmptyString))%bool
           then Some body
      else None
  | EmptyString => None
  end.

Definition parse_directive (s : string) : line :=
  let '(name, args) := word (ltrim s) in
  if String.eqb name "ifdef" then Ifdef (fst (word args))
  else if String.eqb name "ifndef" then Ifndef (fst (word args))
  else if String.eqb name "else" then Else
  else if String.eqb name "endif" then Endif
  else if String.eqb name "define" then
    let '(m, body) := word args in Define m body
  else if String.eqb name "undef" then Undef (fst (word args))
  else if String.eqb name "include" then
    match unbracket args with
    | Some h => Include h
    | None => Unsupported name
    end
  else Unsupported name.

Definition parse_line (s : string) : line :=
  match trim (strip_comment s) with
  | EmptyString => Blank
  | String "#" r => parse_directive r
  | t => Text t
  end.

Definition parse (src : list string) : list line := map parse_line src.

End Source.

(* ===================================================================== *)
(** ** The preprocessor *)
(* ===================================================================== *)

Module Cpp.
Import Source.

(** What the preprocessor did, in order. *)
Inductive event : Type :=
  | Defined (m body : string)
  | Undefined (m : string)
  | Included (h : string)
  | Emitted (t : string).

Inductive error : Type :=
  | ElseWithoutIf
  | ElseAfterElse
  | EndifWithoutIf
  | UnterminatedConditional
  | UnsupportedDirective (name : string).

Inductive result (A : Type) : Type :=
  | Ok (a : A)
  | Err (e : error).
Arguments Ok {A} a.
Arguments Err {A} e.

Definition bind {A B : Type} (r : result A) (k : A -> result B) : result B :=
  match r with
  | Ok a => k a
  | Err e => Err e
  end.

(** The state of a translation unit between two lines: the macro table and
    the trace so far. *)
Record pp : Type := PP { macros : gmap string string; trace : list event }.

(** One open conditional: [live] says whether the lines of the current group
    are processed, [taken] whether a group of this conditional has been
    processed already, [parent_live] whether the conditional itself stands in
    processed text, [in_else] whether its [#else] has been passed. *)
Record frame : Type :=
  Frame { parent_live : bool; taken : bool; live : bool; in_else : bool }.

Definition live_now (fs : list frame) : bool :=
  match fs with
  | [] => true
  | f :: _ => live f
  end.

Definition defined (x : string) (m : gmap string string) : bool :=
  match m !! x with
  | Some _ => true
  | None => false
  end.

Definition open_frame (c : bool) (fs : list frame) : list frame :=
  let p := live_now fs in
  Frame p (p && c) (p && c) false :: fs.

(** The headers an [#include] names are outside the repository.  A header is
    known by what it does to the macro table of the unit that includes it. *)
Definition header_env : Type := string -> gmap string string -> gmap string string.

Section Semantics.

Variable hdr : header_env.

(** What a directive does to the state where text is processed.  The
    directives of conditionals act on the stack of frames, not here. *)
Definition act (l : line) (s : pp) : pp :=
  match l with
  | Define x b => PP (<[x := b]> (macros s)) (trace s ++ [Defined x b])
  | Undef x => PP (delete x (macros s)) (trace s ++ [Undefined x])
  | Include h => PP (hdr h (macros s)) (trace s ++ [Included h])
  | Text t => PP (macros s) (trace s ++ [Emitted t])
  | _ => s
  end.

Definition step (l : line) (c : list frame * pp) : result (list frame * pp) :=
  let '(fs, s) := c in
  match l with
  | Ifdef x => Ok (open_frame (defined x (macros s)) fs, s)
  | Ifndef x => Ok (open_frame (negb (defined x (macros s))) fs, s)
  | Else =>
      match fs with
      | [] => Err ElseWithoutIf
      | f :: fs' =>
          if in_else f then Err ElseAfterElse
          else
            let l := (parent_live f && negb (taken f))%bool in
            Ok (Frame (parent_live f) (taken f || l) l true :: fs', s)
      end
  | Endif =>
      match fs with
      | [] => Err EndifWithoutIf
      | _ :: fs' => Ok (fs', s)
      end
  | Unsupported n =>
      if live_now fs then Err (UnsupportedDirective n) else Ok (fs, s)
  | Blank | Define _ _ | Undef _ | Include _ | Text _ =>
      Ok (fs, if live_now fs then act l s else s)
  end.

Fixpoint run (ls : list line) (c : list frame * pp) : result (list frame * pp) :=
  match ls with
  | [] => Ok c
  | l :: ls' => bind (step l c) (run ls')
  end.

(** The plain lines of [ls] applied in order. *)
Definition acts (ls : list line) (s : pp) : pp :=
  fold_left (fun s l => act l s) ls s.

(** A file is processed with its own stack of conditionals, which has to be
    empty again at its end. *)
Definition preprocess (src : list string) (s : pp) : result pp :=
  bind (run (parse src) ([], s))
       (fun c => match fst c with
                 | [] => Ok (snd c)
                 | _ :: _ => Err UnterminatedConditional
                 end).

(** [#include <AbcView/All.h>] at a point where the unit is in state [s]. *)
Definition include_All_h (s : pp) : result pp := preprocess All_h s.

(** [n] inclusions in a row. *)
Fixpoint include_times (n : nat) (s : pp) : result pp :=
  match n with
  | O => Ok s
  | S n' => bind (include_All_h s) (include_times n')
  end.

(** The macro table after the headers [hs] have been read in order. *)
Definition load (hs : list string) (m : gmap string string) : gmap string string :=
  fold_left (fun m h => hdr h m) hs m.

End Semantics.

Arguments preprocess : simpl never.
Arguments include_All_h : simpl never.

(** The lines that leave the stack of conditionals alone and cannot fail. *)
Definition plain (l : line) : bool :=
  match l with
  | Blank | Define _ _ | Undef _ | Include _ | Text _ => true
  | Ifdef _ | Ifndef _ | Else | Endif | Unsupported _ => false
  end.

(** *** Readings of a trace and of a directive list *)

Definition included (tr : list event) : list string :=
  flat_map (fun e => match e with Included h => [h] | _ => [] end) tr.

Definition emitted (tr : list event) : list string :=
  flat_map (fun e => match e with Emitted t => [t] | _ => [] end) tr.

Definition defines (tr : list event) : list (string * string) :=
  flat_map (fun e => match e with Defined m b => [(m, b)] | _ => [] end) tr.

Definition includes_of (ls : list line) : list string :=
  flat_map (fun l => match l with Include h => [h] | _ => [] end) ls.

Definition defines_of (ls : list line) : list (string * string) :=
  flat_map (fun l => match l with Define m b => [(m, b)] | _ => [] end) ls.

(** The trace of a run, or the error that ended it. *)
Definition outcome (r : result pp) : list event + error :=
  match r with
  | Ok s => inl (trace s)
  | Err e => inr e
  end.

Definition is_text (l : line) : bool :=
  match l with Text _ => true | _ => false end.

(** The environment in which no header touches a macro. *)
Definition inert : header_env := fun _ m => m.

(** An environment in which two headers define the macros of their own
    include guards, as the system's [math.h] and [GL/glew.h] do. *)
Definition sample_env : header_env := fun h m =>
  if String.eqb h "math.h" then <["_MATH_H" := "1"]> m
  else if String.eqb h "GL/glew.h" then <["__GLEW_H__" := ""]> m
  else m.

End Cpp.

(* ===================================================================== *)
(** ** The header: dependency lists and the vocabulary of the specification *)
(* ===================================================================== *)

Module AllH.
Import Source Cpp.

(** *** The dependency lists *)

Definition std_headers : list string :=
  [ "iostream"; "algorithm"; "math.h" ].

Definition math_headers : list string :=
  [ "ImathMath.h"; "ImathVec.h"; "ImathMatrix.h"; "ImathBox.h";
    "ImathQuat.h"; "ImathColor.h"; "ImathFun.h"; "ImathBoxAlgo.h" ].

Definition darwin_gl_headers : list string :=
  [ "OpenGL/gl.h"; "OpenGL/glu.h"; "OpenGL/glext.h"; "OpenGL/OpenGL.h";
    "GLUT/glut.h" ].

Definition glew_header : string := "GL/glew.h".

Definition gui_headers : list string :=
  [ "QtWidgets/QAction"; "QtWidgets/QAbstractItemView";
    "QtWidgets/QDockWidget"; "QtWidgets/QFileDialog"; "QtWidgets/QLabel";
    "QtWidgets/QMenu"; "QtWidgets/QMenuBar"; "QtWidgets/QMainWindow";
    "QtWidgets/QStyleFactory"; "QtWidgets/QToolBar"; "QtWidgets/QTreeWidget";
    "QtWidgets/QTreeWidgetItem"; "QtWidgets/QWidget"; "QIODevice"; "QFile";
    "QResizeEvent"; "QWheelEvent"; "QKeyEvent"; "QMouseEvent"; "QPoint";
    "QtOpenGL/QGLWidget"; "QtOpenGL/QGLFormat" ].

Definition collaborator_headers : list string :=
  [ "AbcOpenGL/GLCamera.h"; "AbcOpenGL/SceneWrapper.h" ].

(** The rendering headers of one platform. *)
Definition gl_headers (darwin : bool) : list string :=
  if darwin then darwin_gl_headers else [glew_header].

(** Everything one inclusion of the header pulls in, in order. *)
Definition unit_headers (darwin : bool) : list string :=
  std_headers ++ math_headers ++ gl_headers darwin
    ++ gui_headers ++ collaborator_headers.

(** The macro table after the two [#define]s of the header. *)
Definition with_own_macros (m : gmap string string) : gmap string string :=
  <[version_ns := "v1"]> (<[guard := ""]> m).

(** What [#ifdef PLATFORM_DARWIN] sees on a first inclusion: the platform
    macro is looked up after the standard and the math headers were read. *)
Definition platform_seen (hdr : header_env) (m : gmap string string) : bool :=
  defined platform (load hdr (std_headers ++ math_headers) (with_own_macros m)).

(** What one inclusion that passes the guard adds to the trace. *)
Definition own_events (darwin : bool) : list event :=
  Defined guard "" :: Defined version_ns "v1"
    :: map Included (unit_headers darwin).

(** *** The layout of the header *)

(** The header has four groups of plain lines, held together by the include
    guard and the platform conditional. *)
Definition prologue : list line :=
  [ Define guard ""; Blank; Define version_ns "v1"; Blank ]
  ++ map Include std_headers ++ [ Blank ]
  ++ map Include math_headers ++ [ Blank ].

Definition darwin_group : list line :=
  [ Blank ] ++ map Include darwin_gl_headers ++ [ Blank ].

Definition other_group : list line :=
  [ Blank; Include glew_header; Blank ].

Definition epilogue : list line :=
  [ Blank ] ++ map Include gui_headers ++ map Include collaborator_headers
  ++ [ Blank ].


(** *** Dependency classes

    The classes of the dependency table of the specification, read off the
    name of a header: the math library's headers start with [Imath], the
    toolkit's with [Q], the rendering API's live in [OpenGL/], [GLUT/] or
    [GL/], the language's own library has no directory.  What is left is a
    collaborator. *)

Definition occurs (pat s : string) : bool :=
  match String.index 0 pat s with
  | Some _ => true
  | None => false
  end.

Definition is_math_header (h : string) : bool := String.prefix "Imath" h.

Definition is_native_gl_header (h : string) : bool :=
  (String.prefix "OpenGL/" h || String.prefix "GLUT/" h || String.prefix "GL/" h)%bool.

Definition is_gui_header (h : string) : bool := String.prefix "Q" h.

Definition is_std_header (h : string) : bool :=
  (negb (occurs "/" h) && negb (is_math_header h) && negb (is_gui_header h))%bool.

Definition is_collaborator_header (h : string) : bool :=
  negb (is_math_header h || is_native_gl_header h || is_gui_header h
        || is_std_header h)%bool.

(** A header of the system's [GL/] directory other than the extension
    loader: [GL/gl.h], [GL/glu.h] and the like. *)
Definition generic_gl_header (h : string) : bool :=
  (String.prefix "GL/" h && negb (String.eqb h glew_header))%bool.

(** A header whose name says that it is about OpenGL. *)
Definition gl_dependent (h : string) : bool := occurs "GL" h.

(** The build error quoted in the header's comment, on the list of headers a
    unit has read: a header about OpenGL comes before the first [GL/glew.h]. *)
Fixpoint gl_before_glew (hs : list string) : bool :=
  match hs with
  | [] => false
  | h :: r =>
      if String.eqb h glew_header then false
      else if gl_dependent h then existsb (String.eqb glew_header) r
      else gl_before_glew r
  end.

(** The file name of a header without its directory. *)
Fixpoint basename (s : string) : string :=
  match s with
  | EmptyString => EmptyString
  | String _ r => if occurs "/" s then basename r else s
  end.

(** *** The enumerations of the specification *)

(** The toolkit classes as the dependency table lists them, each with the
    class of the toolkit it names. *)
Definition spec_gui_classes : list (string * string) :=
  [ ("action", "QAction"); ("abstract item view", "QAbstractItemView");
    ("dock widget", "QDockWidget"); ("file dialog", "QFileDialog");
    ("label", "QLabel"); ("menu", "QMenu"); ("menu bar", "QMenuBar");
    ("main window", "QMainWindow"); ("style factory", "QStyleFactory");
    ("toolbar", "QToolBar"); ("tree widget", "QTreeWidget");
    ("tree widget item", "QTreeWidgetItem"); ("generic widget", "QWidget");
    ("I/O device", "QIODevice"); ("file", "QFile");
    ("resize event", "QResizeEvent"); ("wheel event", "QWheelEvent");
    ("key event", "QKeyEvent"); ("mouse event", "QMouseEvent");
    ("point", "QPoint"); ("GL-capable widget", "QGLWidget");
    ("GL format", "QGLFormat") ].

(** The categories of math primitives the dependency table lists. *)
Inductive math_category : Type :=
  | Vector | Matrix | Box | Quaternion | Color | Interpolation | BoxAlgebra.

Definition spec_math_categories : list math_category :=
  [ Vector; Matrix; Box; Quaternion; Color; Interpolation; BoxAlgebra ].

Definition math_category_eqb (a b : math_category) : bool :=
  match a, b with
  | Vector, Vector | Matrix, Matrix | Box, Box | Quaternion, Quaternion
  | Color, Color | Interpolation, Interpolation | BoxAlgebra, BoxAlgebra => true
  | _, _ => false
  end.

(** What a header of the math library provides: [ImathFun.h] holds the
    interpolation helpers ([lerp], [ulerp], [lerpfactor], [clamp]),
    [ImathBoxAlgo.h] the algorithms on boxes.  [ImathMath.h] wraps the
    functions of the C math library and belongs to none of the listed
    categories. *)
Definition math_category_of (h : string) : option math_category :=
  if String.eqb h "ImathVec.h" then Some Vector
  else if String.eqb h "ImathMatrix.h" then Some Matrix
  else if String.eqb h "ImathBox.h" then Some Box
  else if String.eqb h "ImathQuat.h" then Some Quaternion
  else if String.eqb h "ImathColor.h" then Some Color
  else if String.eqb h "ImathFun.h" then Some Interpolation
  else if String.eqb h "ImathBoxAlgo.h" then Some BoxAlgebra
  else None.

(** The headers of [hs] that an assignment [cat] puts in category [c], and
    those it puts in none. *)
Definition in_category (cat : string -> option math_category)
    (c : math_category) (hs : list string) : list string :=
  List.filter (fun h => match cat h with
                        | Some c' => math_category_eqb c c'
                        | None => false
                        end) hs.

Definition uncategorised (cat : string -> option math_category)
    (hs : list string) : list string :=
  List.filter (fun h => match cat h with Some _ => false | None => true end) hs.

(** The three kinds of directive the specification allows in the file: an
    [#include], a directive of the include guard, a directive of the
    platform conditional.  A blank or comment line is no directive. *)
Definition spec_directive (l : line) : bool :=
  match l with
  | Blank | Include _ | Else | Endif => true
  | Ifndef x | Define x _ => String.eqb x guard
  | Ifdef x => String.eqb x platform
  | Undef _ | Unsupported _ | Text _ => false
  end.

Definition is_version_define (l : line) : bool :=
  match l with
  | Define x b => (String.eqb x version_ns && String.eqb b "v1")%bool
  | _ => false
  end.

End AllH.

(* ===================================================================== *)
(** ** The order of the dependency classes *)
(* ===================================================================== *)

Module Order.
Import Source Cpp AllH.

(** The place of a header's class in the file: the standard library first,
    then the math library, the rendering API, the toolkit, and last the
    collaborators. *)
Definition class_rank (h : string) : nat :=
  if is_std_header h then 0
  else if is_math_header h then 1
  else if is_native_gl_header h then 2
  else if is_gui_header h then 3
  else 4.

(** The line a unit writes to get rid of the guard macro. *)
Definition undef_guard : list string := [ "#undef _AbcView_All_h_" ].

(** An environment in which a header read after the platform conditional,
    [QPoint], undefines the platform macro. *)
Definition late_env : header_env := fun h m =>
  if String.eqb h "QPoint" then delete platform m else m.

End Order.

(* ===================================================================== *)
(** ** Dependencies that include the header back *)
(* ===================================================================== *)

Module Circular.
Import Source Cpp.

(** What an inclusion of [All.h] from inside a dependency does to the macro
    table of the unit; [inner] stands for the headers as that nested pass
    finds them. *)
Definition nested (inner : header_env) (m : gmap string string)
    : gmap string string :=
  match include_All_h inner (PP m []) with
  | Ok s => macros s
  | Err _ => m
  end.

(** Dependencies that do [before], include [All.h] back, and do [after]. *)
Definition including_back (inner before after : header_env) : header_env :=
  fun h m => after h (nested inner (before h m)).

(** The same dependencies without the inclusion in the middle. *)
Definition not_including_back (before after : header_env) : header_env :=
  fun h m => after h (before h m).

End Circular.

(* ===================================================================== *)
(** ** Headers that can fail *)
(* ===================================================================== *)

Module Fallible.
Import Source Cpp.

(** A build stops at an [#include] whose header is not found, or whose
    header runs into an [#error] of its own.  Here a header is known by what
    it does to the macro table where it can be read, and by [None] where it
    stops the build. *)
Definition fallible_env : Type :=
  string -> gmap string string -> option (gmap string string).

(** Why a build stopped: at a directive of the file itself, or inside the
    header [h] that the file asked for. *)
Inductive failure : Type :=
  | OwnDirective (e : error)
  | IncludeFailed (h : string).

Section Semantics.

Variable hf : fallible_env.

(** [#include] asks the environment; every other line steps as in [Cpp],
    where only [#include] looks at the environment. *)
Definition stepF (l : line) (c : list frame * pp)
    : list frame * pp + failure :=
  match l with
  | Include h =>
      if live_now (fst c) then
        match hf h (macros (snd c)) with
        | Some m' => inl (fst c, PP m' (trace (snd c) ++ [Included h]))
        | None => inr (IncludeFailed h)
        end
      else inl c
  | _ =>
      match step inert l c with
      | Ok c' => inl c'
      | Err e => inr (OwnDirective e)
      end
  end.

Fixpoint runF (ls : list line) (c : list frame * pp)
    : list frame * pp + failure :=
  match ls with
  | [] => inl c
  | l :: ls' =>
      match stepF l c with
      | inl c' => runF ls' c'
      | inr f => inr f
      end
  end.

Definition preprocessF (src : list string) (s : pp) : pp + failure :=
  match runF (parse src) ([], s) with
  | inl ([], s') => inl s'
  | inl (_ :: _, _) => inr (OwnDirective UnterminatedConditional)
  | inr f => inr f
  end.

Definition include_All_hF (s : pp) : pp + failure := preprocessF All_h s.


End Semantics.

Arguments preprocessF : simpl never.
Arguments include_All_hF : simpl never.

(** An environment in which [GL/glew.h] refuses a unit that holds the guard
    macro of [gl.h], as the loader does with the error of the comment on
    line 29; every other header is read and touches nothing. *)
Definition strict_glew : fallible_env := fun h m =>
  if String.eqb h "GL/glew.h" then
    if defined "__gl_h_" m then None else Some (<["__GLEW_H__" := ""]> m)
  else Some m.

(** An environment in which the collaborator header [AbcOpenGL/GLCamera.h]
    is not on the include path. *)
Definition no_camera : fallible_env := fun h m =>
  if String.eqb h "AbcOpenGL/GLCamera.h" then None else Some m.

End Fallible.

(* ===================================================================== *)
(** ** Properties *)
(* ===================================================================== *)

Import Source Cpp AllH Order Circular Fallible.

(** *** The lexer and the preprocessor on small inputs *)

Example lex_define :
  parse_line "  #  define   X   a b  // c" = Define "X" "a b".
Proof. reflexivity. Qed.

Example lex_include_comment :
  parse_line "#include <GL/glew.h> // loader" = Include "GL/glew.h".
Proof. reflexivity. Qed.

Example lex_text : parse_line "int x;" = Text "int x;".
Proof. reflexivity. Qed.

Example lex_unsupported : parse_line "#if 1" = Unsupported "if".
Proof. reflexivity. Qed.

Example nested_conditionals :
  outcome (preprocess inert
             [ "#ifdef A"; "a"; "#else"; "b"; "#ifdef B"; "c"; "#else"; "d";
               "#endif"; "#endif" ] (PP {[ "B" := "" ]} []))
  = inl [ Emitted "b"; Emitted "c" ].
Proof. vm_compute. reflexivity. Qed.

Example dead_group_is_skipped :
  outcome (preprocess inert
             [ "#ifdef A"; "#if 1"; "#define X 1"; "#include <x.h>"; "#endif" ]
             (PP ∅ []))
  = inl [].
Proof. vm_compute. reflexivity. Qed.

Example define_then_test :
  outcome (preprocess inert
             [ "#define A"; "#ifdef A"; "#undef A"; "#endif"; "#ifndef A";
               "#include <x.h>"; "#endif" ] (PP ∅ []))
  = inl [ Defined "A" ""; Undefined "A"; Included "x.h" ].
Proof. vm_compute. reflexivity. Qed.

Example else_without_if :
  outcome (preprocess inert [ "#else" ] (PP ∅ [])) = inr ElseWithoutIf.
Proof. reflexivity. Qed.

Example else_after_else :
  outcome (preprocess inert [ "#ifdef A"; "#else"; "#else"; "#endif" ] (PP ∅ []))
  = inr ElseAfterElse.
Proof. vm_compute. reflexivity. Qed.

Example endif_without_if :
  outcome (preprocess inert [ "#endif" ] (PP ∅ [])) = inr EndifWithoutIf.
Proof. reflexivity. Qed.

Example unterminated_conditional :
  outcome (preprocess inert [ "#ifndef A"; "#define A" ] (PP ∅ []))
  = inr UnterminatedConditional.
Proof. vm_compute. reflexivity. Qed.

(** *** The lexed header *)

Lemma All_h_parsed :
  parse All_h =
  Blank :: Ifndef guard :: prologue
  ++ Ifdef platform :: darwin_group
  ++ Else :: other_group
  ++ Endif :: epilogue
  ++ [ Endif ].
Proof. vm_compute. reflexivity. Qed.

(** *** Stepping through a list of directives *)

Section Stepping.

Variable hdr : header_env.

Lemma run_app (ls1 ls2 : list line) (c : list frame * pp) :
  run hdr (ls1 ++ ls2) c = bind (run hdr ls1 c) (run hdr ls2).
Proof.
  revert c. induction ls1 as [|l ls1 IH]; intros c; simpl.
  - reflexivity.
  - destruct (step hdr l c) as [c'|e]; simpl; [apply IH | reflexivity].
Qed.

Lemma run_plain (ls : list line) (fs : list frame) (s : pp) :
  forallb plain ls = true ->
  run hdr ls (fs, s) = Ok (fs, if live_now fs then acts hdr ls s else s).
Proof.
  revert s. induction ls as [|l ls IH]; intros s Hp; simpl in *.
  - destruct (live_now fs); reflexivity.
  - apply andb_prop in Hp as [Hl Hp].
    destruct l; try discriminate Hl; simpl; rewrite IH by assumption;
      destruct (live_now fs); reflexivity.
Qed.

Lemma acts_app (ls1 ls2 : list line) (s : pp) :
  acts hdr (ls1 ++ ls2) s = acts hdr ls2 (acts hdr ls1 s).
Proof. apply fold_left_app. Qed.

Lemma acts_includes (hs : list string) (m : gmap string string) (tr : list event) :
  acts hdr (map Include hs) (PP m tr) = PP (load hdr hs m) (tr ++ map Included hs).
Proof.
  revert m tr. induction hs as [|h hs IH]; intros m tr; simpl.
  - rewrite app_nil_r. reflexivity.
  - rewrite IH. rewrite <- app_assoc. reflexivity.
Qed.

Lemma load_app (hs1 hs2 : list string) (m : gmap string string) :
  load hdr (hs1 ++ hs2) m = load hdr hs2 (load hdr hs1 m).
Proof. apply fold_left_app. Qed.

(** One directive at the head of the list. *)
Lemma run_blank (ls : list line) (c : list frame * pp) :
  run hdr (Blank :: ls) c = run hdr ls c.
Proof. destruct c as [fs s]. simpl. destruct (live_now fs); reflexivity. Qed.

Lemma run_ifdef (x : string) (ls : list line) (fs : list frame) (s : pp) :
  run hdr (Ifdef x :: ls) (fs, s) =
  run hdr ls (open_frame (defined x (macros s)) fs, s).
Proof. reflexivity. Qed.

Lemma run_ifndef (x : string) (ls : list line) (fs : list frame) (s : pp) :
  run hdr (Ifndef x :: ls) (fs, s) =
  run hdr ls (open_frame (negb (defined x (macros s))) fs, s).
Proof. reflexivity. Qed.

Lemma run_else (ls : list line) (p t l : bool) (fs : list frame) (s : pp) :
  run hdr (Else :: ls) (Frame p t l false :: fs, s) =
  run hdr ls (Frame p (t || (p && negb t)) (p && negb t) true :: fs, s).
Proof. reflexivity. Qed.

Lemma run_endif (ls : list line) (f : frame) (fs : list frame) (s : pp) :
  run hdr (Endif :: ls) (f :: fs, s) = run hdr ls (fs, s).
Proof. reflexivity. Qed.

(** A group of plain lines at the head of the list. *)
Lemma run_group (ls1 ls2 : list line) (fs : list frame) (s : pp) :
  forallb plain ls1 = true ->
  run hdr (ls1 ++ ls2) (fs, s) =
  run hdr ls2 (fs, if live_now fs then acts hdr ls1 s else s).
Proof. intros Hp. rewrite run_app, run_plain by assumption. reflexivity. Qed.


End Stepping.

(** *** The two ways through the header *)

Section Runs.

Variable hdr : header_env.

Lemma acts_prologue (m : gmap string string) (tr : list event) :
  acts hdr prologue (PP m tr) =
  PP (load hdr (std_headers ++ math_headers) (with_own_macros m))
     (tr ++ Defined guard "" :: Defined version_ns "v1"
         :: map Included (std_headers ++ math_headers)).
Proof.
  unfold prologue. rewrite !acts_app. cbn [acts fold_left act macros trace].
  rewrite acts_includes. cbn [acts fold_left act macros trace].
  rewrite acts_includes. cbn [acts fold_left act macros trace].
  rewrite load_app, map_app, <- !app_assoc. reflexivity.
Qed.

Lemma acts_darwin_group (m : gmap string string) (tr : list event) :
  acts hdr darwin_group (PP m tr) =
  PP (load hdr darwin_gl_headers m) (tr ++ map Included darwin_gl_headers).
Proof.
  unfold darwin_group. rewrite !acts_app. cbn [acts fold_left act].
  rewrite acts_includes. reflexivity.
Qed.

Lemma acts_other_group (m : gmap string string) (tr : list event) :
  acts hdr other_group (PP m tr) =
  PP (load hdr [glew_header] m) (tr ++ map Included [glew_header]).
Proof. reflexivity. Qed.

Lemma acts_epilogue (m : gmap string string) (tr : list event) :
  acts hdr epilogue (PP m tr) =
  PP (load hdr (gui_headers ++ collaborator_headers) m)
     (tr ++ map Included (gui_headers ++ collaborator_headers)).
Proof.
  unfold epilogue. rewrite !acts_app. cbn [acts fold_left act].
  rewrite acts_includes. cbn [acts fold_left act].
  rewrite acts_includes. cbn [acts fold_left act macros trace].
  rewrite load_app, map_app, <- !app_assoc. reflexivity.
Qed.

(** With the guard macro defined nothing of the header is processed. *)
Lemma guarded_inclusion (s : pp) :
  defined guard (macros s) = true -> include_All_h hdr s = Ok s.
Proof.
  intros Hg. unfold include_All_h, preprocess. rewrite All_h_parsed.
  rewrite run_blank, run_ifndef, Hg.
  change (open_frame (negb true) []) with [Frame true false false false].
  rewrite run_group by reflexivity. cbn [live_now live].
  rewrite run_ifdef.
  change (open_frame ?c [Frame true false false false])
    with [Frame false false false false; Frame true false false false].
  rewrite run_group by reflexivity. cbn [live_now live].
  rewrite run_else. cbn [andb orb negb].
  rewrite run_group by reflexivity. cbn [live_now live].
  rewrite run_endif.
  rewrite run_group by reflexivity. cbn [live_now live].
  reflexivity.
Qed.

(** Without it the two macros are defined and the headers of the platform
    are read. *)
Lemma first_inclusion (m : gmap string string) (tr : list event) :
  defined guard m = false ->
  include_All_h hdr (PP m tr) =
  Ok (PP (load hdr (unit_headers (platform_seen hdr m)) (with_own_macros m))
         (tr ++ own_events (platform_seen hdr m))).
Proof.
  intros Hg. unfold include_All_h, preprocess. rewrite All_h_parsed.
  rewrite run_blank, run_ifndef. cbn [macros]. rewrite Hg.
  change (open_frame (negb false) []) with [Frame true true true false].
  rewrite run_group by reflexivity. cbn [live_now live].
  rewrite acts_prologue, run_ifdef. cbn [macros].
  fold (platform_seen hdr m). unfold own_events, unit_headers, gl_headers.
  destruct (platform_seen hdr m).
  - change (open_frame true [Frame true true true false])
      with [Frame true true true false; Frame true true true false].
    rewrite run_group by reflexivity. cbn [live_now live].
    rewrite acts_darwin_group, run_else. cbn [andb orb negb].
    rewrite run_group by reflexivity. cbn [live_now live].
    rewrite run_endif.
    rewrite run_group by reflexivity. cbn [live_now live].
    rewrite acts_epilogue. cbn [run bind fst snd].
    rewrite !load_app, !map_app, <- !app_assoc. reflexivity.
  - change (open_frame false [Frame true true true false])
      with [Frame true false false false; Frame true true true false].
    rewrite run_group by reflexivity. cbn [live_now live].
    rewrite run_else. cbn [andb orb negb].
    rewrite run_group by reflexivity. cbn [live_now live].
    rewrite acts_other_group, run_endif.
    rewrite run_group by reflexivity. cbn [live_now live].
    rewrite acts_epilogue. cbn [run bind fst snd].
    rewrite !load_app, !map_app, <- !app_assoc. reflexivity.
Qed.

End Runs.


(** *** Reading the trace of an inclusion *)

Lemma included_app (tr1 tr2 : list event) :
  included (tr1 ++ tr2) = included tr1 ++ included tr2.
Proof. unfold included. rewrite !flat_map_concat_map, map_app, concat_app. reflexivity. Qed.

Lemma included_map (hs : list string) : included (map Included hs) = hs.
Proof. induction hs as [|h hs IH]; simpl; [|rewrite IH]; reflexivity. Qed.

Lemma emitted_map (hs : list string) : emitted (map Included hs) = [].
Proof. induction hs as [|h hs IH]; simpl; [|rewrite IH]; reflexivity. Qed.

Lemma emitted_app (tr1 tr2 : list event) :
  emitted (tr1 ++ tr2) = emitted tr1 ++ emitted tr2.
Proof. unfold emitted. rewrite !flat_map_concat_map, map_app, concat_app. reflexivity. Qed.

Lemma defines_map (hs : list string) : defines (map Included hs) = [].
Proof. induction hs as [|h hs IH]; simpl; [|rewrite IH]; reflexivity. Qed.

Lemma included_own_events (darwin : bool) :
  included (own_events darwin) = unit_headers darwin.
Proof. exact (included_map (unit_headers darwin)). Qed.

Lemma emitted_own_events (darwin : bool) : emitted (own_events darwin) = [].
Proof. exact (emitted_map (unit_headers darwin)). Qed.

(** Every inclusion succeeds, and adds to the trace either nothing or the
    events of one pass through the header. *)
Lemma inclusion_trace (hdr : header_env) (s : pp) :
  exists s', include_All_h hdr s = Ok s' /\
    trace s' = trace s ++ (if defined guard (macros s) then []
                           else own_events (platform_seen hdr (macros s))).
Proof.
  destruct (defined guard (macros s)) eqn:Hg.
  - exists s. rewrite guarded_inclusion by assumption.
    rewrite app_nil_r. split; reflexivity.
  - destruct s as [m tr]. simpl in *. rewrite first_inclusion by assumption.
    eexists. split; reflexivity.
Qed.

(** *** The own macros and the platform macro *)

Lemma defined_insert (x y v : string) (m : gmap string string) :
  defined x (<[y := v]> m) = (String.eqb y x || defined x m)%bool.
Proof.
  unfold defined. destruct (String.eqb_spec y x) as [->|Hne].
  - rewrite lookup_insert_eq. reflexivity.
  - rewrite lookup_insert_ne by assumption. reflexivity.
Qed.

Lemma guard_in_own_macros (m : gmap string string) :
  defined guard (with_own_macros m) = true.
Proof. unfold with_own_macros. rewrite !defined_insert. reflexivity. Qed.

Lemma platform_in_own_macros (m : gmap string string) :
  defined platform (with_own_macros m) = defined platform m.
Proof. unfold with_own_macros. rewrite !defined_insert. reflexivity. Qed.

Lemma version_in_own_macros (m : gmap string string) :
  with_own_macros m !! version_ns = Some "v1".
Proof. unfold with_own_macros. apply lookup_insert_eq. Qed.

Lemma load_keeps (hdr : header_env) (x : string) (hs : list string) (m : gmap string string) :
  (forall h m', In h hs -> defined x m' = true -> defined x (hdr h m') = true) ->
  defined x m = true -> defined x (load hdr hs m) = true.
Proof.
  revert m. induction hs as [|h hs IH]; intros m Hk Hm; simpl.
  - assumption.
  - apply IH.
    + intros h' m' Hin. apply Hk. right. assumption.
    + apply Hk; [left; reflexivity | assumption].
Qed.

Lemma load_neutral (hdr : header_env) (x : string) (hs : list string) (m : gmap string string) :
  (forall h m', defined x (hdr h m') = defined x m') ->
  defined x (load hdr hs m) = defined x m.
Proof.
  intros Hn. revert m. induction hs as [|h hs IH]; intros m; simpl.
  - reflexivity.
  - rewrite IH. apply Hn.
Qed.

(** Where no header defines or undefines the platform macro, the [#ifdef]
    sees it as the build set it. *)
Lemma platform_seen_neutral (hdr : header_env) (m : gmap string string) :
  (forall h m', defined platform (hdr h m') = defined platform m') ->
  platform_seen hdr m = defined platform m.
Proof.
  intros Hn. unfold platform_seen.
  rewrite load_neutral by assumption. apply platform_in_own_macros.
Qed.

Lemma unit_headers_named (darwin : bool) (h : string) :
  In h (unit_headers darwin) -> In h (includes_of (parse All_h)).
Proof.
  assert (Hall : forallb (fun h => existsb (String.eqb h) (includes_of (parse All_h)))
                         (unit_headers darwin) = true)
    by (destruct darwin; vm_compute; reflexivity).
  intros Hin. rewrite forallb_forall in Hall. specialize (Hall h Hin).
  apply existsb_exists in Hall as [h' [Hin' Heq]].
  apply String.eqb_eq in Heq. subst. assumption.
Qed.

(** *** Membership in a list of header names, by computation *)

Lemma In_eqb (h : string) (hs : list string) :
  In h hs <-> existsb (String.eqb h) hs = true.
Proof.
  rewrite existsb_exists. split.
  - intros Hin. exists h. split; [assumption | apply String.eqb_refl].
  - intros [h' [Hin Heq]]. apply String.eqb_eq in Heq. subst. assumption.
Qed.

Lemma not_In_eqb (h : string) (hs : list string) :
  ~ In h hs <-> existsb (String.eqb h) hs = false.
Proof. rewrite In_eqb. destruct (existsb _ hs); split; congruence. Qed.

Lemma incl_eqb (hs1 hs2 : list string) :
  forallb (fun h => existsb (String.eqb h) hs2) hs1 = true -> incl hs1 hs2.
Proof.
  rewrite forallb_forall. intros Hall h Hin. apply In_eqb, Hall, Hin.
Qed.

Lemma disjoint_eqb (hs1 hs2 : list string) :
  forallb (fun h => negb (existsb (String.eqb h) hs2)) hs1 = true ->
  forall h, In h hs1 -> ~ In h hs2.
Proof.
  rewrite forallb_forall. intros Hall h Hin. apply not_In_eqb.
  apply negb_true_iff, Hall, Hin.
Qed.

(* ===================================================================== *)
(** ** The platform conditional *)
(* ===================================================================== *)

(** C1, as the code has it.  On an inclusion that passes the include guard
    the header reads, between the math headers and the toolkit headers, the
    headers of exactly one branch of the platform conditional.  With
    [PLATFORM_DARWIN] defined where the [#ifdef] stands these are the five
    native headers [OpenGL/gl.h], [OpenGL/glu.h], [OpenGL/glext.h],
    [OpenGL/OpenGL.h] and [GLUT/glut.h], and [GL/glew.h] is not read; in every
    other case [GL/glew.h] is read, it is the only header of the rendering
    API that is, and none of the five native headers is read.  Where no
    header defines or undefines the platform macro, the [#ifdef] sees it as
    the build set it. *)
Theorem platform_selection
    (hdr : header_env) (m : gmap string string) (tr : list event) :
  defined guard m = false ->
  exists s' new,
    include_All_h hdr (PP m tr) = Ok s' /\
    trace s' = tr ++ new /\
    included new =
      std_headers ++ math_headers
      ++ (if platform_seen hdr m then darwin_gl_headers else [glew_header])
      ++ gui_headers ++ collaborator_headers /\
    List.filter is_native_gl_header (included new) =
      (if platform_seen hdr m then darwin_gl_headers else [glew_header]) /\
    (if platform_seen hdr m
     then incl darwin_gl_headers (included new)
          /\ ~ In glew_header (included new)
     else In glew_header (included new)
          /\ forall h, In h darwin_gl_headers -> ~ In h (included new)) /\
    ((forall h m', defined platform (hdr h m') = defined platform m') ->
     platform_seen hdr m = defined platform m).
Proof.
  intros Hg. rewrite first_inclusion by assumption.
  exists (PP (load hdr (unit_headers (platform_seen hdr m)) (with_own_macros m))
             (tr ++ own_events (platform_seen hdr m))),
         (own_events (platform_seen hdr m)).
  rewrite included_own_events.
  split; [reflexivity|]. split; [reflexivity|].
  split; [reflexivity|].
  split; [destruct (platform_seen hdr m); vm_compute; reflexivity|].
  split; [|apply platform_seen_neutral].
  destruct (platform_seen hdr m); split.
  - apply incl_eqb. vm_compute. reflexivity.
  - apply not_In_eqb. vm_compute. reflexivity.
  - apply In_eqb. vm_compute. reflexivity.
  - apply disjoint_eqb. vm_compute. reflexivity.
Qed.

(** The selection at a concrete unit: the build defines [PLATFORM_DARWIN],
    the headers are those of [sample_env]. *)
Lemma platform_selection_witness :
  exists s' new,
    include_All_h sample_env (PP {[ platform := "1" ]} []) = Ok s' /\
    trace s' = [] ++ new /\
    included new =
      std_headers ++ math_headers
      ++ (if platform_seen sample_env {[ platform := "1" ]}
          then darwin_gl_headers else [glew_header])
      ++ gui_headers ++ collaborator_headers /\
    List.filter is_native_gl_header (included new) =
      (if platform_seen sample_env {[ platform := "1" ]}
       then darwin_gl_headers else [glew_header]) /\
    (if platform_seen sample_env {[ platform := "1" ]}
     then incl darwin_gl_headers (included new)
          /\ ~ In glew_header (included new)
     else In glew_header (included new)
          /\ forall h, In h darwin_gl_headers -> ~ In h (included new)) /\
    ((forall h m', defined platform (sample_env h m') = defined platform m') ->
     platform_seen sample_env {[ platform := "1" ]}
       = defined platform {[ platform := "1" ]}).
Proof.
  apply (platform_selection sample_env {[ platform := "1" ]} []).
  vm_compute. reflexivity.
Defined.

(** C1 as the specification words it does not hold.  In a build without
    [PLATFORM_DARWIN] the header reads [GL/glew.h] and no generic OpenGL
    header beside it; and in a unit where the guard macro is defined already
    neither branch is read, whatever the platform. *)
Lemma platform_selection_as_stated_fails :
  (exists s',
     include_All_h inert (PP ∅ []) = Ok s' /\
     List.filter is_native_gl_header (included (trace s')) = [glew_header] /\
     existsb generic_gl_header (included (trace s')) = false)
  /\
  (exists s',
     include_All_h inert (PP {[ guard := "" ]} []) = Ok s' /\
     included (trace s') = []).
Proof.
  split.
  - rewrite first_inclusion by reflexivity. eexists. split; [reflexivity|].
    cbn [trace app]. rewrite included_own_events.
    split; vm_compute; reflexivity.
  - rewrite guarded_inclusion by reflexivity. eexists. split; reflexivity.
Qed.

(* ===================================================================== *)
(** ** The content of the file *)
(* ===================================================================== *)

(** C2, as the code has it.  The file is 59 lines long.  None of its lines is
    text of the language proper and none is a directive the preprocessor
    model does not know; every directive is an [#include], a directive of
    the include guard, a directive of the platform conditional, or the one
    macro definition [#define ABCVIEW_VERSION_NS v1]; and that definition is
    the only line outside the three kinds the specification names. *)
Theorem file_is_include_manifest :
  length All_h = 59 /\
  forallb (fun l => spec_directive l || is_version_define l) (parse All_h) = true /\
  List.filter is_text (parse All_h) = [] /\
  List.filter (fun l => negb (spec_directive l)) (parse All_h)
    = [ Define version_ns "v1" ].
Proof. repeat split; vm_compute; reflexivity. Qed.

(** C2 as the specification words it does not hold: the file has 59 lines,
    not 60, and its fifth line, [#define ABCVIEW_VERSION_NS v1], is a
    directive of none of the three kinds. *)
Lemma file_is_include_manifest_as_stated_fails :
  Nat.eqb (length All_h) 60 = false /\
  nth 4 (parse All_h) Blank = Define version_ns "v1" /\
  spec_directive (Define version_ns "v1") = false /\
  forallb spec_directive (parse All_h) = false.
Proof. repeat split; vm_compute; reflexivity. Qed.

(** C3.  The collaborator headers the file names are [AbcOpenGL/GLCamera.h]
    and [AbcOpenGL/SceneWrapper.h], both of [AbcOpenGL], and no other; and
    these two are the collaborator headers a unit reads by an inclusion that
    passes the guard, on either platform. *)
Theorem collaborators_exact (hdr : header_env) (s : pp) :
  List.filter is_collaborator_header (includes_of (parse All_h))
    = [ "AbcOpenGL/GLCamera.h"; "AbcOpenGL/SceneWrapper.h" ] /\
  forallb (String.prefix "AbcOpenGL/")
    (List.filter is_collaborator_header (includes_of (parse All_h))) = true /\
  exists s' new,
    include_All_h hdr s = Ok s' /\
    trace s' = trace s ++ new /\
    List.filter is_collaborator_header (included new)
      = if defined guard (macros s) then []
        else [ "AbcOpenGL/GLCamera.h"; "AbcOpenGL/SceneWrapper.h" ].
Proof.
  split; [vm_compute; reflexivity|]. split; [vm_compute; reflexivity|].
  destruct (inclusion_trace hdr s) as [s' [Hrun Htr]].
  exists s'. eexists. split; [exact Hrun|]. split; [exact Htr|].
  destruct (defined guard (macros s)); [reflexivity|].
  rewrite included_own_events.
  destruct (platform_seen hdr (macros s)); vm_compute; reflexivity.
Qed.

(** C4.  No line of the file is text of the language proper: the file holds
    no declaration, definition or statement.  So an inclusion, which always
    succeeds, passes no text of the file's own to the compiler: what the
    trace gains are the two macro definitions and the headers read. *)
Theorem no_own_declarations (hdr : header_env) (s : pp) :
  existsb is_text (parse All_h) = false /\
  exists s' new,
    include_All_h hdr s = Ok s' /\
    trace s' = trace s ++ new /\
    emitted new = [] /\
    emitted (trace s') = emitted (trace s) /\
    Forall (fun e => match e with
                     | Included h => In h (includes_of (parse All_h))
                     | Defined x b => (x, b) = (guard, "") \/ (x, b) = (version_ns, "v1")
                     | Undefined _ | Emitted _ => False
                     end) new.
Proof.
  split; [vm_compute; reflexivity|].
  destruct (inclusion_trace hdr s) as [s' [Hrun Htr]].
  exists s'. eexists. split; [exact Hrun|]. split; [exact Htr|].
  rewrite Htr, emitted_app.
  destruct (defined guard (macros s)).
  - split; [reflexivity|]. split; [apply app_nil_r|]. constructor.
  - rewrite emitted_own_events. split; [reflexivity|].
    split; [apply app_nil_r|].
    unfold own_events. constructor; [left; reflexivity|].
    constructor; [right; reflexivity|].
    apply List.Forall_forall. intros e He. apply in_map_iff in He as [h [<- Hin]].
    revert Hin. apply unit_headers_named.
Qed.

(* ===================================================================== *)
(** ** The dependency table *)
(* ===================================================================== *)

(** C5.  The toolkit headers the file names are, in the order of the
    specification's enumeration, the headers of its twenty-two classes: one
    per class, none twice, none beside them; and they are the toolkit
    headers a unit reads by an inclusion that passes the guard. *)
Theorem gui_headers_match_enumeration (hdr : header_env) (s : pp) :
  map basename (List.filter is_gui_header (includes_of (parse All_h)))
    = map snd spec_gui_classes /\
  length spec_gui_classes = 22 /\
  NoDup (map snd spec_gui_classes) /\
  NoDup (map fst spec_gui_classes) /\
  exists s' new,
    include_All_h hdr s = Ok s' /\
    trace s' = trace s ++ new /\
    map basename (List.filter is_gui_header (included new))
      = if defined guard (macros s) then [] else map snd spec_gui_classes.
Proof.
  split; [vm_compute; reflexivity|]. split; [reflexivity|].
  split; [apply (bool_decide_unpack _); vm_compute; exact I|].
  split; [apply (bool_decide_unpack _); vm_compute; exact I|].
  destruct (inclusion_trace hdr s) as [s' [Hrun Htr]].
  exists s'. eexists. split; [exact Hrun|]. split; [exact Htr|].
  destruct (defined guard (macros s)); [reflexivity|].
  rewrite included_own_events.
  destruct (platform_seen hdr (macros s)); vm_compute; reflexivity.
Qed.

(** Counting the headers of a list by category: every header is in one of
    the seven categories or in none. *)
Lemma category_count (cat : string -> option math_category) (hs : list string) :
  length hs =
    length (uncategorised cat hs)
    + length (in_category cat Vector hs) + length (in_category cat Matrix hs)
    + length (in_category cat Box hs) + length (in_category cat Quaternion hs)
    + length (in_category cat Color hs)
    + length (in_category cat Interpolation hs)
    + length (in_category cat BoxAlgebra hs).
Proof.
  induction hs as [|h hs IH]; [reflexivity|].
  unfold uncategorised, in_category in *. simpl in *.
  destruct (cat h) as [[]|]; simpl; lia.
Qed.

(** Whatever header is taken for whatever category: with one header in each
    of the seven listed categories, one of the eight math headers the file
    names is in none. *)
Lemma no_assignment_covers_math_headers (cat : string -> option math_category) :
  (forall c, length (in_category cat c math_headers) = 1) ->
  length (uncategorised cat math_headers) = 1.
Proof.
  intros Hone. pose proof (category_count cat math_headers) as Hc.
  rewrite !Hone in Hc. change (length math_headers) with 8 in Hc. lia.
Qed.

(** C6, as the code has it.  The file names eight headers of the math
    library.  Each of the seven listed categories has exactly one of them:
    [ImathVec.h] (vector), [ImathMatrix.h] (matrix), [ImathBox.h] (box),
    [ImathQuat.h] (quaternion), [ImathColor.h] (color), [ImathFun.h]
    (interpolation helpers) and [ImathBoxAlgo.h] (box algebra).  The eighth,
    [ImathMath.h], is in none of the listed categories.  The eight are the
    math headers a unit reads by an inclusion that passes the guard. *)
Theorem math_headers_by_category (hdr : header_env) (s : pp) :
  List.filter is_math_header (includes_of (parse All_h)) = math_headers /\
  map (fun c => in_category math_category_of c math_headers) spec_math_categories
    = [ [ "ImathVec.h" ]; [ "ImathMatrix.h" ]; [ "ImathBox.h" ];
        [ "ImathQuat.h" ]; [ "ImathColor.h" ]; [ "ImathFun.h" ];
        [ "ImathBoxAlgo.h" ] ] /\
  uncategorised math_category_of math_headers = [ "ImathMath.h" ] /\
  exists s' new,
    include_All_h hdr s = Ok s' /\
    trace s' = trace s ++ new /\
    List.filter is_math_header (included new)
      = if defined guard (macros s) then [] else math_headers.
Proof.
  split; [vm_compute; reflexivity|]. split; [vm_compute; reflexivity|].
  split; [vm_compute; reflexivity|].
  destruct (inclusion_trace hdr s) as [s' [Hrun Htr]].
  exists s'. eexists. split; [exact Hrun|]. split; [exact Htr|].
  destruct (defined guard (macros s)); [reflexivity|].
  rewrite included_own_events.
  destruct (platform_seen hdr (macros s)); vm_compute; reflexivity.
Qed.

(** C6 as the specification words it does not hold: [ImathMath.h] is a
    header of the math library, the file names it, and it is outside the
    listed categories; there are eight math headers for seven categories. *)
Lemma math_headers_as_stated_fails :
  nth 3 (includes_of (parse All_h)) "" = "ImathMath.h" /\
  is_math_header "ImathMath.h" = true /\
  math_category_of "ImathMath.h" = None /\
  length (List.filter is_math_header (includes_of (parse All_h))) = 8 /\
  length spec_math_categories = 7.
Proof. repeat split; vm_compute; reflexivity. Qed.

(* ===================================================================== *)
(** ** The macros of the header *)
(* ===================================================================== *)

(** C8.  The file holds two macro definitions, that of its guard and
    [#define ABCVIEW_VERSION_NS v1], the latter on its fifth line, before the
    first [#include] and outside the platform conditional.  On an inclusion
    that passes the guard, whatever the platform and whatever the headers
    do, the trace gains the two definitions and then only headers, and the
    first header read finds [ABCVIEW_VERSION_NS] defined as [v1]. *)
Theorem version_macro_first
    (hdr : header_env) (m : gmap string string) (tr : list event) :
  defined guard m = false ->
  defines_of (parse All_h) = [ (guard, ""); (version_ns, "v1") ] /\
  nth 4 (parse All_h) Blank = Define version_ns "v1" /\
  includes_of (firstn 5 (parse All_h)) = [] /\
  exists hs,
    hs = unit_headers (platform_seen hdr m) /\
    include_All_h hdr (PP m tr) =
      Ok (PP (load hdr hs (<[version_ns := "v1"]> (<[guard := ""]> m)))
             (tr ++ Defined guard "" :: Defined version_ns "v1"
                 :: map Included hs)) /\
    (<[version_ns := "v1"]> (<[guard := ""]> m)) !! version_ns = Some "v1" /\
    defines (map Included hs) = [].
Proof.
  intros Hg. split; [vm_compute; reflexivity|].
  split; [vm_compute; reflexivity|]. split; [vm_compute; reflexivity|].
  exists (unit_headers (platform_seen hdr m)). split; [reflexivity|].
  split; [apply first_inclusion; assumption|].
  split; [apply version_in_own_macros | apply defines_map].
Qed.

(** The two definitions at a concrete unit: nothing defined before, the
    headers of [sample_env]. *)
Lemma version_macro_first_witness :
  defines_of (parse All_h) = [ (guard, ""); (version_ns, "v1") ] /\
  nth 4 (parse All_h) Blank = Define version_ns "v1" /\
  includes_of (firstn 5 (parse All_h)) = [] /\
  exists hs,
    hs = unit_headers (platform_seen sample_env ∅) /\
    include_All_h sample_env (PP ∅ []) =
      Ok (PP (load sample_env hs (<[version_ns := "v1"]> (<[guard := ""]> ∅)))
             ([] ++ Defined guard "" :: Defined version_ns "v1"
                 :: map Included hs)) /\
    (<[version_ns := "v1"]> (<[guard := ""]> (∅ : gmap string string)))
      !! version_ns = Some "v1" /\
    defines (map Included hs) = [].
Proof.
  apply (version_macro_first sample_env ∅ []). vm_compute. reflexivity.
Defined.

(** *** Repeated inclusion *)

Lemma include_times_guarded (hdr : header_env) (n : nat) (s : pp) :
  defined guard (macros s) = true -> include_times hdr n s = Ok s.
Proof.
  intros Hg. induction n as [|n IH]; cbn [include_times].
  - reflexivity.
  - rewrite guarded_inclusion by assumption. exact IH.
Qed.

(** After an inclusion the guard macro is defined, unless a header the file
    names undefines it. *)
Lemma guard_after_inclusion (hdr : header_env) (s s1 : pp) :
  (forall h m, In h (includes_of (parse All_h)) ->
               defined guard m = true -> defined guard (hdr h m) = true) ->
  include_All_h hdr s = Ok s1 -> defined guard (macros s1) = true.
Proof.
  intros Hkeep Hrun. destruct (defined guard (macros s)) eqn:Hg.
  - rewrite guarded_inclusion in Hrun by assumption.
    injection Hrun as <-. assumption.
  - destruct s as [m tr]. simpl in Hg.
    rewrite first_inclusion in Hrun by assumption.
    assert (Hm : macros s1 = load hdr (unit_headers (platform_seen hdr m))
                                  (with_own_macros m))
      by (injection Hrun as <-; reflexivity).
    rewrite Hm.
    apply (load_keeps hdr guard (unit_headers (platform_seen hdr m))
             (with_own_macros m)); [|apply guard_in_own_macros].
    intros h m' Hin. apply Hkeep. revert Hin. apply unit_headers_named.
Qed.

Lemma sample_env_keeps (x : string) (h : string) (m : gmap string string) :
  defined x m = true -> defined x (sample_env h m) = true.
Proof.
  intros Hd. unfold sample_env.
  destruct (String.eqb h "math.h"); [|destruct (String.eqb h "GL/glew.h")];
    rewrite ?defined_insert, ?Hd, ?orb_true_r; reflexivity.
Qed.

(** C9.  The file opens with [#ifndef _AbcView_All_h_] and the definition of
    that macro and closes with the matching [#endif]; with the macro defined
    an inclusion changes nothing.  So, none of the named headers undefining
    the guard macro, two or more inclusions in a row leave a unit in exactly
    the state one inclusion leaves it in: the same macro table and the same
    trace. *)
Theorem inclusion_idempotent (hdr : header_env) (s : pp) (n : nat) :
  (forall h m, In h (includes_of (parse All_h)) ->
               defined guard m = true -> defined guard (hdr h m) = true) ->
  2 <= n ->
  firstn 3 (parse All_h) = [ Blank; Ifndef guard; Define guard "" ] /\
  List.last (parse All_h) Blank = Endif /\
  exists s1,
    include_All_h hdr s = Ok s1 /\
    include_times hdr n s = Ok s1 /\
    include_All_h hdr s1 = Ok s1.
Proof.
  intros Hkeep Hn. split; [vm_compute; reflexivity|].
  split; [vm_compute; reflexivity|].
  destruct (inclusion_trace hdr s) as [s1 [Hrun _]].
  pose proof (guard_after_inclusion hdr s s1 Hkeep Hrun) as Hg1.
  exists s1. split; [exact Hrun|]. split.
  - destruct n as [|n]; [lia|]. cbn [include_times]. rewrite Hrun.
    cbn [bind]. apply include_times_guarded. exact Hg1.
  - apply guarded_inclusion. exact Hg1.
Qed.

(** Three inclusions in a row into an empty unit, the headers of
    [sample_env]. *)
Lemma inclusion_idempotent_witness :
  firstn 3 (parse All_h) = [ Blank; Ifndef guard; Define guard "" ] /\
  List.last (parse All_h) Blank = Endif /\
  exists s1,
    include_All_h sample_env (PP ∅ []) = Ok s1 /\
    include_times sample_env 3 (PP ∅ []) = Ok s1 /\
    include_All_h sample_env s1 = Ok s1.
Proof.
  apply (inclusion_idempotent sample_env (PP ∅ []) 3).
  - intros h m _. apply sample_env_keeps.
  - lia.
Defined.

(* ===================================================================== *)
(** ** The order of the OpenGL headers *)
(* ===================================================================== *)

(** C10, as the code has it.  Where an inclusion passes the guard and the
    platform conditional takes its second branch, the headers the file reads
    before [GL/glew.h] are the three of the standard library and the eight
    of the math library, none of which names OpenGL; every other header it
    reads that names OpenGL, those of [QtOpenGL] and of [AbcOpenGL], is read
    after [GL/glew.h]; and the five of the first branch, the only ones that
    stand above it in the file, are not read at all.  So the file itself
    puts no OpenGL header before [GL/glew.h].  What the unit read before it
    included this file is not in the file's hands. *)
Theorem glew_precedes_gl_headers
    (hdr : header_env) (m : gmap string string) (tr : list event) :
  defined guard m = false ->
  platform_seen hdr m = false ->
  exists s' new,
    include_All_h hdr (PP m tr) = Ok s' /\
    trace s' = tr ++ new /\
    included new =
      std_headers ++ math_headers
      ++ glew_header :: gui_headers ++ collaborator_headers /\
    existsb gl_dependent (std_headers ++ math_headers) = false /\
    List.filter gl_dependent (gui_headers ++ collaborator_headers)
      = [ "QtOpenGL/QGLWidget"; "QtOpenGL/QGLFormat";
          "AbcOpenGL/GLCamera.h"; "AbcOpenGL/SceneWrapper.h" ] /\
    List.filter gl_dependent (includes_of (firstn 29 (parse All_h)))
      = darwin_gl_headers /\
    forall h, In h darwin_gl_headers -> ~ In h (included new).
Proof.
  intros Hg Hp. rewrite first_inclusion by exact Hg. rewrite Hp.
  eexists. exists (own_events false).
  split; [reflexivity|]. split; [reflexivity|].
  rewrite included_own_events.
  split; [reflexivity|]. split; [vm_compute; reflexivity|].
  split; [vm_compute; reflexivity|]. split; [vm_compute; reflexivity|].
  apply disjoint_eqb. vm_compute. reflexivity.
Qed.

(** The order of the headers at a concrete unit: one that has read
    [<vector>] before, neither the guard nor the platform macro defined, the
    headers of [sample_env]. *)
Lemma glew_precedes_gl_headers_witness :
  exists s' new,
    include_All_h sample_env (PP ∅ [ Included "vector" ]) = Ok s' /\
    trace s' = [ Included "vector" ] ++ new /\
    included new =
      std_headers ++ math_headers
      ++ glew_header :: gui_headers ++ collaborator_headers /\
    existsb gl_dependent (std_headers ++ math_headers) = false /\
    List.filter gl_dependent (gui_headers ++ collaborator_headers)
      = [ "QtOpenGL/QGLWidget"; "QtOpenGL/QGLFormat";
          "AbcOpenGL/GLCamera.h"; "AbcOpenGL/SceneWrapper.h" ] /\
    List.filter gl_dependent (includes_of (firstn 29 (parse All_h)))
      = darwin_gl_headers /\
    forall h, In h darwin_gl_headers -> ~ In h (included new).
Proof.
  apply (glew_precedes_gl_headers sample_env ∅ [ Included "vector" ]);
    vm_compute; reflexivity.
Defined.

(** C10 as the specification words it does not hold: the error of the
    comment is within reach of a compilation of this header.  A unit that
    has read [GL/gl.h] and then includes the header reads [GL/gl.h] before
    [GL/glew.h]; and where [GL/glew.h] refuses a unit that holds the guard
    macro of [gl.h], the build of such a unit stops at line 30. *)
Lemma glew_error_is_reachable :
  (exists s',
     include_All_h inert (PP ∅ [ Included "GL/gl.h" ]) = Ok s' /\
     included (trace s') =
       "GL/gl.h" :: std_headers ++ math_headers
       ++ glew_header :: gui_headers ++ collaborator_headers /\
     gl_before_glew (included (trace s')) = true)
  /\
  include_All_hF strict_glew (PP {[ "__gl_h_" := "" ]} [ Included "GL/gl.h" ])
    = inr (IncludeFailed glew_header)
  /\
  nth 29 (parse All_h) Blank = Include glew_header.
Proof.
  split; [|split; vm_compute; reflexivity].
  rewrite first_inclusion by reflexivity. eexists. split; [reflexivity|].
  cbn [trace]. rewrite included_app, included_own_events.
  split; vm_compute; reflexivity.
Qed.

(* ===================================================================== *)
(** ** Further properties of the header *)
(* ===================================================================== *)

(** *** Any number of inclusions *)

(** Each header the file names is read at most once per unit where the guard
    macro survives the headers. *)
Lemma NoDup_unit_headers (darwin : bool) : NoDup (unit_headers darwin).
Proof. destruct darwin; apply (bool_decide_unpack _); vm_compute; exact I. Qed.

(** X2.  In a unit where none of the named headers undefines the guard
    macro, however many inclusions of the header follow one another, no
    dependency header is read twice. *)
Theorem each_header_read_once (hdr : header_env) (n : nat) (s : pp) :
  (forall h m, In h (includes_of (parse All_h)) ->
               defined guard m = true -> defined guard (hdr h m) = true) ->
  exists s' new,
    include_times hdr n s = Ok s' /\
    trace s' = trace s ++ new /\
    NoDup (included new).
Proof.
  intros Hkeep. destruct n as [|n]; cbn [include_times].
  - exists s, []. rewrite app_nil_r. repeat split. constructor.
  - destruct (inclusion_trace hdr s) as [s1 [Hrun Htr]].
    pose proof (guard_after_inclusion hdr s s1 Hkeep Hrun) as Hg1.
    rewrite Hrun. cbn [bind]. rewrite include_times_guarded by exact Hg1.
    exists s1. eexists. split; [reflexivity|]. split; [exact Htr|].
    destruct (defined guard (macros s)); [constructor|].
    rewrite included_own_events. apply NoDup_unit_headers.
Qed.

(** Four inclusions in a row into an empty unit, the headers of
    [sample_env]. *)
Lemma each_header_read_once_witness :
  exists s' new,
    include_times sample_env 4 (PP ∅ []) = Ok s' /\
    trace s' = [] ++ new /\
    NoDup (included new).
Proof.
  apply (each_header_read_once sample_env 4 (PP ∅ [])).
  intros h m _. apply sample_env_keeps.
Defined.

(** *** The macro table after an inclusion *)

Lemma load_lookup (hdr : header_env) (x : string) (hs : list string)
    (m : gmap string string) :
  (forall h m', In h hs -> hdr h m' !! x = m' !! x) ->
  load hdr hs m !! x = m !! x.
Proof.
  revert m. induction hs as [|h hs IH]; intros m Hx; cbn [load fold_left].
  - reflexivity.
  - fold (load hdr hs (hdr h m)). rewrite IH.
    + apply Hx. left. reflexivity.
    + intros h' m' Hin. apply Hx. right. exact Hin.
Qed.

Lemma own_macros_lookup (x : string) (m : gmap string string) :
  with_own_macros m !! x =
    if String.eqb x version_ns then Some "v1"
    else if String.eqb x guard then Some ""
    else m !! x.
Proof.
  unfold with_own_macros.
  destruct (String.eqb_spec x version_ns) as [->|Hv].
  - apply lookup_insert_eq.
  - rewrite lookup_insert_ne by congruence.
    destruct (String.eqb_spec x guard) as [->|Hg].
    + apply lookup_insert_eq.
    + apply lookup_insert_ne. congruence.
Qed.

Lemma sample_env_lookup (x h : string) (m : gmap string string) :
  x <> "_MATH_H" -> x <> "__GLEW_H__" -> sample_env h m !! x = m !! x.
Proof.
  intros H1 H2. unfold sample_env.
  destruct (String.eqb h "math.h"); [|destruct (String.eqb h "GL/glew.h")];
    rewrite ?lookup_insert_ne by congruence; reflexivity.
Qed.

(** X3.  What an inclusion does to a macro [x] that none of the named headers
    touches.  With the guard defined the whole macro table is left as it
    was.  Otherwise [ABCVIEW_VERSION_NS] ends as [v1] and the guard macro as
    the empty text, and every other macro keeps the value it had, or stays
    undefined. *)
Theorem macro_table_after_inclusion
    (hdr : header_env) (m : gmap string string) (tr : list event) (x : string) :
  (forall h m', In h (includes_of (parse All_h)) -> hdr h m' !! x = m' !! x) ->
  exists s',
    include_All_h hdr (PP m tr) = Ok s' /\
    (defined guard m = true -> macros s' = m) /\
    (defined guard m = false ->
     macros s' !! x =
       if String.eqb x version_ns then Some "v1"
       else if String.eqb x guard then Some ""
       else m !! x).
Proof.
  intros Hx. destruct (defined guard m) eqn:Hg.
  - rewrite guarded_inclusion by exact Hg. eexists. split; [reflexivity|].
    split; [reflexivity | discriminate].
  - rewrite first_inclusion by exact Hg. eexists. split; [reflexivity|].
    split; [discriminate|]. intros _. cbn [macros].
    rewrite load_lookup; [apply own_macros_lookup|].
    intros h m' Hin. apply Hx. revert Hin. apply unit_headers_named.
Qed.

(** The macro [NDEBUG] of a unit that defined it, under the headers of
    [sample_env]. *)
Lemma macro_table_after_inclusion_witness :
  (exists s',
     include_All_h sample_env (PP {[ "NDEBUG" := "1" ]} []) = Ok s' /\
     (defined guard ({[ "NDEBUG" := "1" ]} : gmap string string) = true ->
      macros s' = {[ "NDEBUG" := "1" ]}) /\
     (defined guard ({[ "NDEBUG" := "1" ]} : gmap string string) = false ->
      macros s' !! "NDEBUG" =
        if String.eqb "NDEBUG" version_ns then Some "v1"
        else if String.eqb "NDEBUG" guard then Some ""
        else ({[ "NDEBUG" := "1" ]} : gmap string string) !! "NDEBUG")) /\
  defined guard ({[ "NDEBUG" := "1" ]} : gmap string string) = false.
Proof.
  split; [|vm_compute; reflexivity].
  apply (macro_table_after_inclusion sample_env {[ "NDEBUG" := "1" ]} []
           "NDEBUG").
  intros h m' _. apply sample_env_lookup; discriminate.
Defined.

(** *** The platform macro *)

Lemma load_neutral_in (hdr : header_env) (x : string) (hs : list string)
    (m : gmap string string) :
  (forall h m', In h hs -> defined x (hdr h m') = defined x m') ->
  defined x (load hdr hs m) = defined x m.
Proof.
  revert m. induction hs as [|h hs IH]; intros m Hn; cbn [load fold_left].
  - reflexivity.
  - fold (load hdr hs (hdr h m)). rewrite IH.
    + apply Hn. left. reflexivity.
    + intros h' m' Hin. apply Hn. right. exact Hin.
Qed.

(** The [#ifdef] sees the platform macro as the build set it where the
    headers read before it, those of the standard and of the math library,
    leave it alone. *)
Lemma platform_seen_early (hdr : header_env) (m : gmap string string) :
  (forall h m', In h (std_headers ++ math_headers) ->
                defined platform (hdr h m') = defined platform m') ->
  platform_seen hdr m = defined platform m.
Proof.
  intros Hn. unfold platform_seen.
  rewrite load_neutral_in by exact Hn. apply platform_in_own_macros.
Qed.

Lemma late_env_early (h : string) (m : gmap string string) :
  In h (std_headers ++ math_headers) ->
  defined platform (late_env h m) = defined platform m.
Proof.
  intros Hin. unfold late_env.
  destruct (String.eqb_spec h "QPoint") as [->|_]; [|reflexivity].
  apply In_eqb in Hin. vm_compute in Hin. discriminate Hin.
Qed.

(** X4.  The platform conditional is an [#ifdef]: it asks whether
    [PLATFORM_DARWIN] is defined, not what it is defined as.  Set to any
    text by the build, [0] and the empty text included, and left alone by
    the headers read before the conditional, it selects the five native
    headers, and [GL/glew.h] is not read; what the headers read after the
    conditional do to the macro changes nothing. *)
Theorem platform_value_is_ignored
    (hdr : header_env) (m : gmap string string) (tr : list event) (v : string) :
  defined guard m = false ->
  (forall h m', In h (std_headers ++ math_headers) ->
                defined platform (hdr h m') = defined platform m') ->
  m !! platform = Some v ->
  exists s' new,
    include_All_h hdr (PP m tr) = Ok s' /\
    trace s' = tr ++ new /\
    List.filter is_native_gl_header (included new) = darwin_gl_headers /\
    ~ In glew_header (included new).
Proof.
  intros Hg Hn Hv. rewrite first_inclusion by exact Hg.
  rewrite (platform_seen_early hdr m Hn).
  unfold defined at 1 2. rewrite Hv.
  eexists. exists (own_events true). split; [reflexivity|].
  split; [reflexivity|]. rewrite included_own_events. split.
  - vm_compute. reflexivity.
  - apply not_In_eqb. vm_compute. reflexivity.
Qed.

(** A build with [-DPLATFORM_DARWIN=0], under headers of which a late one,
    [QPoint], undefines the macro. *)
Lemma platform_value_is_ignored_witness :
  exists s' new,
    include_All_h late_env (PP {[ platform := "0" ]} []) = Ok s' /\
    trace s' = [] ++ new /\
    List.filter is_native_gl_header (included new) = darwin_gl_headers /\
    ~ In glew_header (included new).
Proof.
  apply (platform_value_is_ignored late_env {[ platform := "0" ]} [] "0").
  - vm_compute. reflexivity.
  - intros h m'. apply late_env_early.
  - vm_compute. reflexivity.
Defined.

(** X5.  The platform decides about the headers of the rendering API and
    about nothing else.  Two units that pass the guard, on whatever
    platforms and with whatever headers behind the names, define the same
    macros and read the same headers in the same order once the headers of
    the rendering API are left out. *)
Theorem platform_decides_rendering_only
    (hdr1 hdr2 : header_env) (m1 m2 : gmap string string)
    (tr1 tr2 : list event) :
  defined guard m1 = false ->
  defined guard m2 = false ->
  exists s1 s2 new1 new2,
    include_All_h hdr1 (PP m1 tr1) = Ok s1 /\
    include_All_h hdr2 (PP m2 tr2) = Ok s2 /\
    trace s1 = tr1 ++ new1 /\
    trace s2 = tr2 ++ new2 /\
    defines new1 = defines new2 /\
    List.filter (fun h => negb (is_native_gl_header h)) (included new1)
      = List.filter (fun h => negb (is_native_gl_header h)) (included new2).
Proof.
  intros Hg1 Hg2. rewrite !first_inclusion by assumption.
  do 2 eexists. exists (own_events (platform_seen hdr1 m1)),
                       (own_events (platform_seen hdr2 m2)).
  do 4 (split; [reflexivity|]). rewrite !included_own_events.
  unfold own_events. cbn [defines flat_map app]. rewrite !defines_map.
  split; [reflexivity|].
  destruct (platform_seen hdr1 m1), (platform_seen hdr2 m2);
    vm_compute; reflexivity.
Qed.

(** A Darwin build and another build side by side. *)
Lemma platform_decides_rendering_only_witness :
  exists s1 s2 new1 new2,
    include_All_h sample_env (PP {[ platform := "" ]} []) = Ok s1 /\
    include_All_h inert (PP ∅ [ Included "vector" ]) = Ok s2 /\
    trace s1 = [] ++ new1 /\
    trace s2 = [ Included "vector" ] ++ new2 /\
    defines new1 = defines new2 /\
    List.filter (fun h => negb (is_native_gl_header h)) (included new1)
      = List.filter (fun h => negb (is_native_gl_header h)) (included new2).
Proof.
  apply (platform_decides_rendering_only sample_env inert
           {[ platform := "" ]} ∅ [] [ Included "vector" ]);
    vm_compute; reflexivity.
Defined.

(** *** The order of the classes *)

(** X6.  The headers of one inclusion come class by class, and the classes
    never interleave: first the standard library, then the math library,
    then the rendering API of the platform, then the toolkit, last the
    collaborators.  So no header of the toolkit or of a collaborator is read
    before the rendering API's, on either platform. *)
Theorem headers_come_class_by_class (hdr : header_env) (s : pp) :
  exists s' new,
    include_All_h hdr s = Ok s' /\
    trace s' = trace s ++ new /\
    StronglySorted le (map class_rank (included new)).
Proof.
  destruct (inclusion_trace hdr s) as [s' [Hrun Htr]].
  exists s'. eexists. split; [exact Hrun|]. split; [exact Htr|].
  destruct (defined guard (macros s)); [constructor|].
  rewrite included_own_events.
  destruct (platform_seen hdr (macros s)); vm_compute;
    repeat (constructor; [|repeat constructor]); constructor.
Qed.

(** *** The guard and what stands behind it *)

Lemma undef_guard_run (hdr : header_env) (s : pp) :
  preprocess hdr undef_guard s =
  Ok (PP (delete guard (macros s)) (trace s ++ [ Undefined guard ])).
Proof. reflexivity. Qed.

Lemma own_macros_delete_guard (m : gmap string string) :
  with_own_macros (delete guard m) = with_own_macros m.
Proof. unfold with_own_macros. rewrite insert_delete_eq. reflexivity. Qed.

(** X8.  The guard macro is all that keeps the header from being read again.
    In any unit, already holding the header or not, [#undef _AbcView_All_h_]
    followed by an inclusion reads the whole header: the two macros are
    defined and every header of the platform is read, once more if they had
    been. *)
Theorem undef_guard_reopens_header (hdr : header_env) (s : pp) :
  exists s',
    bind (preprocess hdr undef_guard s) (include_All_h hdr) = Ok s' /\
    trace s' =
      trace s ++ Undefined guard :: own_events (platform_seen hdr (macros s)) /\
    macros s' =
      load hdr (unit_headers (platform_seen hdr (macros s)))
           (with_own_macros (macros s)).
Proof.
  rewrite undef_guard_run. cbn [bind].
  rewrite first_inclusion
    by (unfold defined; rewrite lookup_delete_eq; reflexivity).
  unfold platform_seen. rewrite own_macros_delete_guard.
  eexists. split; [reflexivity|]. cbn [trace macros].
  rewrite <- app_assoc. split; reflexivity.
Qed.

(** *** A dependency that includes the header back *)

Lemma early_headers_named (h : string) :
  In h (std_headers ++ math_headers) -> In h (includes_of (parse All_h)).
Proof.
  intros Hin. apply (unit_headers_named true). unfold unit_headers.
  rewrite app_assoc. apply in_or_app. left. exact Hin.
Qed.

(** Two environments that do the same to every macro table in which the
    guard is defined load the same, from such a table on. *)
Lemma load_agree (hdr1 hdr2 : header_env) (hs : list string)
    (m : gmap string string) :
  (forall h m', In h hs -> defined guard m' = true -> hdr1 h m' = hdr2 h m') ->
  (forall h m', In h hs -> defined guard m' = true ->
                defined guard (hdr2 h m') = true) ->
  defined guard m = true ->
  load hdr1 hs m = load hdr2 hs m.
Proof.
  revert m. induction hs as [|h hs IH]; intros m Hsame Hkeep Hg;
    cbn [load fold_left].
  - reflexivity.
  - fold (load hdr1 hs (hdr1 h m)). fold (load hdr2 hs (hdr2 h m)).
    rewrite (Hsame h m (or_introl eq_refl) Hg).
    apply IH.
    + intros h' m' Hin. apply Hsame. right. exact Hin.
    + intros h' m' Hin. apply Hkeep. right. exact Hin.
    + apply Hkeep; [left; reflexivity | exact Hg].
Qed.

(** So they give the same inclusion: every header of the file is read in a
    table in which the guard is defined. *)
Lemma inclusion_agree (hdr1 hdr2 : header_env) (s : pp) :
  (forall h m, In h (includes_of (parse All_h)) ->
               defined guard m = true -> hdr1 h m = hdr2 h m) ->
  (forall h m, In h (includes_of (parse All_h)) ->
               defined guard m = true -> defined guard (hdr2 h m) = true) ->
  include_All_h hdr1 s = include_All_h hdr2 s.
Proof.
  intros Hsame Hkeep. destruct (defined guard (macros s)) eqn:Hg.
  - rewrite !guarded_inclusion by exact Hg. reflexivity.
  - destruct s as [m tr]. cbn [macros] in Hg.
    rewrite !first_inclusion by exact Hg.
    assert (Hp : platform_seen hdr1 m = platform_seen hdr2 m).
    { unfold platform_seen. f_equal. apply load_agree.
      - intros h m' Hin. apply Hsame, early_headers_named, Hin.
      - intros h m' Hin. apply Hkeep, early_headers_named, Hin.
      - apply guard_in_own_macros. }
    rewrite Hp. do 2 f_equal. apply load_agree.
    + intros h m' Hin. apply Hsame. revert Hin. apply unit_headers_named.
    + intros h m' Hin. apply Hkeep. revert Hin. apply unit_headers_named.
    + apply guard_in_own_macros.
Qed.

Lemma nested_guarded (inner : header_env) (m : gmap string string) :
  defined guard m = true -> nested inner m = m.
Proof.
  intros Hg. unfold nested. rewrite guarded_inclusion by exact Hg. reflexivity.
Qed.

(** X7.  The file defines its guard macro above its first [#include].  So a
    dependency that includes the file back is cut short: where each named
    header, before and after the point at which it includes the file back,
    leaves the guard macro defined, an inclusion ends in the very state, macro
    table and trace, in which it ends when no dependency includes the file
    back; whatever the headers are that the nested pass would find. *)
Theorem including_back_changes_nothing
    (inner before after : header_env) (s : pp) :
  (forall h m, In h (includes_of (parse All_h)) ->
               defined guard m = true -> defined guard (before h m) = true) ->
  (forall h m, In h (includes_of (parse All_h)) ->
               defined guard m = true -> defined guard (after h m) = true) ->
  exists s',
    include_All_h (including_back inner before after) s = Ok s' /\
    include_All_h (not_including_back before after) s = Ok s'.
Proof.
  intros Hb Ha.
  destruct (inclusion_trace (not_including_back before after) s)
    as [s' [Hrun _]].
  exists s'. split; [|exact Hrun]. rewrite <- Hrun. apply inclusion_agree.
  - intros h m Hin Hg. unfold including_back, not_including_back.
    rewrite nested_guarded; [reflexivity|]. apply Hb; assumption.
  - intros h m Hin Hg. unfold not_including_back.
    apply Ha; [exact Hin|]. apply Hb; assumption.
Qed.

(** Every dependency includes the file back; the unit is empty, the headers
    are those of [sample_env], and the nested pass would find headers of
    which one undefines the platform macro. *)
Lemma including_back_changes_nothing_witness :
  exists s',
    include_All_h (including_back late_env sample_env inert) (PP ∅ []) = Ok s' /\
    include_All_h (not_including_back sample_env inert) (PP ∅ []) = Ok s'.
Proof.
  apply (including_back_changes_nothing late_env sample_env inert (PP ∅ [])).
  - intros h m _. apply sample_env_keeps.
  - intros h m _ Hg. exact Hg.
Defined.

(** *** Where a build of the header can stop *)

Section FallibleRuns.

Variable hf : fallible_env.






End FallibleRuns.


(** Two builds that stop.  On a platform without the macro, in a unit that
    holds the guard macro of [gl.h], the build stops inside [GL/glew.h] on
    line 30; with the macro there it goes through, [GL/glew.h] not being
    read.  And a build without [AbcOpenGL/GLCamera.h] on its path stops on
    line 56. *)
Example build_stops_in_glew :
  include_All_hF strict_glew (PP {[ "__gl_h_" := "" ]} [])
    = inr (IncludeFailed "GL/glew.h") /\
  (exists s', include_All_hF strict_glew
                (PP {[ "__gl_h_" := ""; platform := "" ]} []) = inl s').
Proof. split; [|eexists]; vm_compute; reflexivity. Qed.

Example build_stops_at_missing_header :
  include_All_hF no_camera (PP ∅ []) = inr (IncludeFailed "AbcOpenGL/GLCamera.h") /\
  nth 55 (parse All_h) Blank = Include "AbcOpenGL/GLCamera.h".
Proof. split; vm_compute; reflexivity. Qed.
